(** * The wasm-bindgen loader interface of the Glenside web demo

  [pkg/wasm.d.ts] is the TypeScript declaration of the package that loads
  the compiled Glenside module into a page.  It declares one entry point
  ([start_app]), the type of a module source ([InitInput]), the exports of
  an instantiated module ([InitOutput]) and the loader ([init]).

  This development embeds that declaration file as a syntax tree of
  TypeScript types, gives the tree the small amount of semantics the
  declaration itself fixes (which argument lists a signature accepts,
  which members an interface exposes and with what shape), and checks the
  statements of the interface specification against it.  The bodies
  behind the declarations (the JavaScript glue and the compiled module)
  are not part of the declaration file; where a statement is about them
  they are modelled from the specification, and marked as such. *)

From Stdlib Require Import String List Bool Arith NArith Lia.
Import ListNotations.
Set Warnings "-register-all".
Local Open Scope string_scope.
Local Open Scope list_scope.

(* ===================================================================== *)
(** ** TypeScript declarations *)
(* ===================================================================== *)

Module TS.

(** A parameter of a function declaration or of a function type:
    [name?: T] has [poptional = true]. *)
Record param_of (T : Type) : Type := Param {
  pname : string;
  poptional : bool;
  ptype : T
}.
Arguments Param {T} _ _ _.
Arguments pname {T} _.
Arguments poptional {T} _.
Arguments ptype {T} _.

(** The types that occur in the declaration file.  [TRef] is a reference
    by name: to an alias or an interface of the file, or to an ambient
    type of the host ([URL], [Response], [WebAssembly.Memory], ...). *)
Inductive ty : Type :=
| TNumber
| TVoid
| TUndefined
| TRef (name : string)
| TUnion (alts : list ty)
| TPromise (t : ty)
| TFun (params : list (param_of ty)) (ret : ty).

Definition param : Type := param_of ty.

(** [(a: number, b: number) => R]: the parameters of the function types
    of the file are all required and all of type [number]. *)
Definition num (name : string) : param := Param name false TNumber.

(** A member of an interface: [readonly name: T]. *)
Record member : Type := Member {
  mreadonly : bool;
  mname : string;
  mtype : ty
}.

(** A function declaration, [export function f(ps): R] or
    [export default function f(ps): R]. *)
Record fundecl : Type := FunDecl {
  fdefault : bool;
  fname : string;
  fparams : list param;
  fret : ty
}.

Inductive decl : Type :=
| DFunction (f : fundecl)
| DTypeAlias (name : string) (body : ty)
| DInterface (name : string) (members : list member).

Definition file : Type := list decl.

(** *** Looking declarations up *)

Fixpoint lookup_alias (name : string) (f : file) : option ty :=
  match f with
  | [] => None
  | DTypeAlias n body :: rest =>
      if String.eqb n name then Some body else lookup_alias name rest
  | _ :: rest => lookup_alias name rest
  end.

Fixpoint lookup_interface (name : string) (f : file) : option (list member) :=
  match f with
  | [] => None
  | DInterface n ms :: rest =>
      if String.eqb n name then Some ms else lookup_interface name rest
  | _ :: rest => lookup_interface name rest
  end.

Fixpoint functions (f : file) : list fundecl :=
  match f with
  | [] => []
  | DFunction fd :: rest => fd :: functions rest
  | _ :: rest => functions rest
  end.

Fixpoint lookup_member (name : string) (ms : list member) : option member :=
  match ms with
  | [] => None
  | m :: rest =>
      if String.eqb (mname m) name then Some m else lookup_member name rest
  end.

(** *** Shapes of function types *)

(** The number of parameters and whether a result is produced. *)
Definition arity (t : ty) : option nat :=
  match t with
  | TFun ps _ => Some (length ps)
  | _ => None
  end.

Definition result (t : ty) : option ty :=
  match t with
  | TFun _ r => Some r
  | _ => None
  end.

Definition is_promise (t : ty) : bool :=
  match t with
  | TPromise _ => true
  | _ => false
  end.

(** A type is deferred when it is a promise, and a callable is
    asynchronous when what it returns is deferred. *)
Definition returns_promise (t : ty) : bool :=
  match t with
  | TFun _ r => is_promise r
  | _ => false
  end.

Definition all_numbers (ps : list param) : bool :=
  forallb (fun p => match ptype p with TNumber => negb (poptional p) | _ => false end) ps.

(** *** Alias expansion *)

(** One pass of replacing references to aliases of the file by their
    bodies.  References to interfaces and to ambient types stay. *)
Fixpoint expand (f : file) (t : ty) : ty :=
  match t with
  | TRef n =>
      match lookup_alias n f with
      | Some body => body
      | None => TRef n
      end
  | TUnion alts => TUnion (map (expand f) alts)
  | TPromise t' => TPromise (expand f t')
  | TFun ps r =>
      TFun (map (fun p => Param (pname p) (poptional p) (expand f (ptype p))) ps)
           (expand f r)
  | _ => t
  end.

(** No reference to an alias of the file is left in a type. *)
Fixpoint alias_free (f : file) (t : ty) : bool :=
  match t with
  | TRef n =>
      match lookup_alias n f with
      | Some _ => false
      | None => true
      end
  | TUnion alts => forallb (alias_free f) alts
  | TPromise t' => alias_free f t'
  | TFun ps r => forallb (fun p => alias_free f (ptype p)) ps && alias_free f r
  | _ => true
  end.

(** *** Values and calls *)

(** What the host may pass: [undefined], a number, an object of an
    ambient host type (named by that type), or a promise, given by the
    value it settles to. *)
Inductive value : Type :=
| VUndefined
| VNumber
| VHost (cls : string)
| VPromise (settled : value).

(** Whether a value may be passed where a type is expected is decided by
    the compiler from the ambient declarations of the host ([RequestInfo]
    and [BufferSource] are unions there, [WebAssembly.Module] is an
    interface without members) and from its options (whether [undefined]
    is a [number] depends on [strictNullChecks]).  Neither is part of the
    declaration file, so assignability is a parameter of call checking and
    nothing below depends on how it is decided. *)
Section Assignability.

Variable assignable : ty -> value -> bool.

Definition has_type (f : file) (t : ty) (v : value) : bool :=
  assignable (expand f t) v.

(** An argument fits a parameter when it is assignable to the parameter's
    type, or the parameter is optional and the argument is [undefined]
    ([name?: T] declares a parameter of type [T | undefined]). *)
Definition fits (f : file) (p : param) (v : value) : bool :=
  has_type f (ptype p) v
  || (poptional p && match v with VUndefined => true | _ => false end).

(** A call type-checks when every argument fits its parameter, the
    parameters left without an argument are optional, and no argument is
    left over. *)
Fixpoint accepts_call (f : file) (ps : list param) (args : list value) : bool :=
  match ps, args with
  | [], [] => true
  | [], _ :: _ => false
  | p :: ps', [] => poptional p && accepts_call f ps' []
  | p :: ps', a :: args' => fits f p a && accepts_call f ps' args'
  end.

End Assignability.

(** *** The alternatives of a type *)

(** The members of a union, nested unions flattened. *)
Fixpoint alternatives (t : ty) : list ty :=
  match t with
  | TUnion alts => flat_map alternatives alts
  | _ => [t]
  end.

(** The forms a value of a type may take: each alternative of the type,
    marked [false], and each alternative of what a promise among them
    settles to, marked [true]. *)
Fixpoint forms (t : ty) : list (bool * ty) :=
  match t with
  | TUnion alts => flat_map forms alts
  | TPromise t' => map (fun a => (true, a)) (alternatives t')
  | _ => [(false, t)]
  end.

End TS.

(* ===================================================================== *)
(** ** The declaration file [pkg/wasm.d.ts] *)
(* ===================================================================== *)

Module Wasm.
Import TS.

(** [export function start_app(): void;] *)
Definition start_app : fundecl := FunDecl false "start_app" [] TVoid.

(** [export type InitInput =
      RequestInfo | URL | Response | BufferSource | WebAssembly.Module;] *)
Definition InitInput : ty :=
  TUnion [TRef "RequestInfo"; TRef "URL"; TRef "Response";
          TRef "BufferSource"; TRef "WebAssembly.Module"].

(** The two closure shims, under the names the compiler gave them. *)
Definition invoke_binary : string :=
  "_dyn_core__ops__function__FnMut__A_B___Output___R_as_wasm_bindgen__closure__WasmClosure___describe__invoke__h3394ec600d01342b".

Definition invoke_nullary : string :=
  "_dyn_core__ops__function__FnMut___A____Output___R_as_wasm_bindgen__closure__WasmClosure___describe__invoke__h61dd3d68460cfcb7".

(** [export interface InitOutput { ... }], member by member. *)
Definition InitOutput : list member :=
  [ Member true "memory" (TRef "WebAssembly.Memory");
    Member true "start_app" (TFun [] TVoid);
    Member true "__wbindgen_malloc" (TFun [num "a"] TNumber);
    Member true "__wbindgen_realloc" (TFun [num "a"; num "b"; num "c"] TNumber);
    Member true "__wbindgen_export_2" (TRef "WebAssembly.Table");
    Member true invoke_binary
      (TFun [num "a"; num "b"; num "c"; num "d"; num "e"; num "f"] TNumber);
    Member true invoke_nullary (TFun [num "a"; num "b"; num "c"] TVoid);
    Member true "__wbindgen_free" (TFun [num "a"; num "b"] TVoid);
    Member true "__wbindgen_exn_store" (TFun [num "a"] TVoid);
    Member true "__wbindgen_start" (TFun [] TVoid) ].

(** [export default function init
      (module_or_path?: InitInput | Promise<InitInput>): Promise<InitOutput>;] *)
Definition init : fundecl :=
  FunDecl true "init"
    [ Param "module_or_path" true
        (TUnion [TRef "InitInput"; TPromise (TRef "InitInput")]) ]
    (TPromise (TRef "InitOutput")).

(** The file, in the order of its declarations. *)
Definition wasm_d_ts : file :=
  [ DFunction start_app;
    DTypeAlias "InitInput" InitInput;
    DInterface "InitOutput" InitOutput;
    DFunction init ].

(** The type of a function declaration, as a function type. *)
Definition type_of (fd : fundecl) : ty := TFun (fparams fd) (fret fd).

(** A call of a declared function, checked against the file. *)
Definition call_ok (assignable : ty -> value -> bool)
           (fd : fundecl) (args : list value) : bool :=
  accepts_call assignable wasm_d_ts (fparams fd) args.

(** The forms the source of a load may take, by the declared type of
    the parameters of [init]. *)
Definition source_forms : list (bool * ty) :=
  flat_map (fun p => forms (expand wasm_d_ts (ptype p))) (fparams init).

(** The member of the handle with a given name. *)
Definition export (name : string) : option member :=
  lookup_member name InitOutput.

(** The shape of an export: how many arguments it takes and what it
    returns, when it is a function. *)
Definition export_arity (name : string) : option nat :=
  match export name with
  | Some m => arity (mtype m)
  | None => None
  end.

Definition export_result (name : string) : option ty :=
  match export name with
  | Some m => result (mtype m)
  | None => None
  end.

Definition export_type (name : string) : option ty :=
  option_map mtype (export name).

End Wasm.

(* ===================================================================== *)
(** ** The vocabulary of the interface specification *)
(* ===================================================================== *)

Module Bridge.
Import TS.

(** The four kinds of module source the specification names. *)
Inductive SourceKind : Type :=
| NetworkReference
| ResponseObject
| RawByteBuffer
| PrecompiledModule.

(** The kind of an alternative of [InitInput], by the ambient type it
    names: a request descriptor and a URL are both fetched over the
    network. *)
Definition source_kind_of (cls : string) : option SourceKind :=
  if String.eqb cls "RequestInfo" then Some NetworkReference
  else if String.eqb cls "URL" then Some NetworkReference
  else if String.eqb cls "Response" then Some ResponseObject
  else if String.eqb cls "BufferSource" then Some RawByteBuffer
  else if String.eqb cls "WebAssembly.Module" then Some PrecompiledModule
  else None.

(** The kind of an alternative of a type. *)
Definition kind_of_type (t : ty) : option SourceKind :=
  match t with
  | TRef c => source_kind_of c
  | _ => None
  end.

Definition plain_source (v : value) : option SourceKind :=
  match v with
  | VHost c => source_kind_of c
  | _ => None
  end.

(** The kind of a source value, looking through one deferred wrapper. *)
Definition classify_source (v : value) : option SourceKind :=
  match v with
  | VPromise v' => plain_source v'
  | _ => plain_source v
  end.

(** What the specification says a handle exposes. *)
Inductive Role : Type :=
| LinearMemoryView
| Allocate
| Reallocate
| Free
| InvokeBinary
| InvokeNullary
| ExceptionSetter
| ExceptionGetter
| StartupHook
| EntryPoint
| DispatchTable.

Definition Role_eqb (a b : Role) : bool :=
  match a, b with
  | LinearMemoryView, LinearMemoryView | Allocate, Allocate
  | Reallocate, Reallocate | Free, Free | InvokeBinary, InvokeBinary
  | InvokeNullary, InvokeNullary | ExceptionSetter, ExceptionSetter
  | ExceptionGetter, ExceptionGetter | StartupHook, StartupHook
  | EntryPoint, EntryPoint | DispatchTable, DispatchTable => true
  | _, _ => false
  end.

(** The role each export of [InitOutput] plays.  No export of the
    declaration reads the exception slot back. *)
Definition role_of_export (name : string) : option Role :=
  if String.eqb name "memory" then Some LinearMemoryView
  else if String.eqb name "start_app" then Some EntryPoint
  else if String.eqb name "__wbindgen_malloc" then Some Allocate
  else if String.eqb name "__wbindgen_realloc" then Some Reallocate
  else if String.eqb name "__wbindgen_export_2" then Some DispatchTable
  else if String.eqb name Wasm.invoke_binary then Some InvokeBinary
  else if String.eqb name Wasm.invoke_nullary then Some InvokeNullary
  else if String.eqb name "__wbindgen_free" then Some Free
  else if String.eqb name "__wbindgen_exn_store" then Some ExceptionSetter
  else if String.eqb name "__wbindgen_start" then Some StartupHook
  else None.

Definition plays (r : Role) (m : member) : bool :=
  match role_of_export (mname m) with
  | Some r' => Role_eqb r r'
  | None => false
  end.

(** The interface exposes a role when one of its members plays it. *)
Definition exposes (ms : list member) (r : Role) : bool :=
  existsb (plays r) ms.

(** The members an interface has about the exception slot, and the
    members that hand a value back to the host. *)
Definition about_exceptions (m : member) : bool :=
  match String.index 0 "exn" (mname m) with
  | Some _ => true
  | None => false
  end.

Definition yields_value (m : member) : bool :=
  match mtype m with
  | TFun _ TVoid => false
  | TFun _ _ => true
  | _ => false
  end.

(** The closure shims are the exports named after [FnMut]. *)
Definition is_invoke (m : member) : bool :=
  String.prefix "_dyn_core__ops__function__FnMut__" (mname m).

(** What the specification lists as exposed by a handle. *)
Definition listed_roles : list Role :=
  [LinearMemoryView; Allocate; Reallocate; Free; InvokeBinary;
   InvokeNullary; ExceptionSetter; ExceptionGetter; StartupHook;
   EntryPoint].

End Bridge.

(* ===================================================================== *)
(** ** The loader behind [init] *)
(* ===================================================================== *)

Module Loader.

(** Modelled from the spec: the body of the loader (the JavaScript glue
    behind [init]) is not in the declaration file; what follows is the
    data of sections 3, 4.1 and 7.  The errors a load can fail with. *)
Inductive Error : Type :=
| SourceUnavailable
| MalformedModule
| IncompatibleMemory
| InstantiationFailed.

(** A compiled module, as far as the loader looks at it: the least
    number of memory pages it declares, and whether its start-up routine
    runs through. *)
Record Module : Type := {
  min_pages : N;
  start_succeeds : bool
}.

Record LinearMemory : Type := { pages : N }.

Record Response : Type := {
  status : nat;
  body : list Byte.byte
}.

(** A network reference is a request descriptor or a URL. *)
Inductive NetRef : Type :=
| Request (info : string)
| Url (href : string).

Inductive PlainSource : Type :=
| NetworkRef (r : NetRef)
| FetchedResponse (resp : Response)
| RawBytes (bytes : list Byte.byte)
| Precompiled (m : Module).

(** Modelled from the spec: the Module Source of section 3 (the values
    behind [InitInput] are not in the declaration file).  A source is
    given at once or as a deferred value, which settles to a source or is
    rejected ([None]). *)
Inductive ModuleSource : Type :=
| Immediate (p : PlainSource)
| Deferred (settles : option PlainSource).

Inductive FetchOutcome : Type :=
| Unreachable
| Responded (resp : Response).

Record Handle : Type := {
  hmodule : Module;
  memory : LinearMemory
}.

(** What a load does that the host can observe, in order. *)
Inductive Event : Type :=
| EAwait
| EFetch (r : NetRef)
| EAllocate (size : N)
| EInstantiate (m : Module)
| EStart (m : Module).

(** *** A log-and-error monad *)

Definition M (A : Type) : Type := (list Event * (Error + A))%type.

Definition ret {A} (a : A) : M A := ([], inr a).

Definition bind {A B} (c : M A) (k : A -> M B) : M B :=
  match c with
  | (t, inl e) => (t, inl e)
  | (t, inr a) => let (t', r) := k a in (t ++ t', r)
  end.

Definition emit (e : Event) : M unit := ([e], inr tt).

Definition fail {A} (e : Error) : M A := ([], inl e).

Definition trace {A} (c : M A) : list Event := fst c.

Definition outcome {A} (c : M A) : Error + A := snd c.

Declare Scope loader_scope.
Delimit Scope loader_scope with loader.
Notation "x <- c ;; k" := (bind c (fun x => k))
  (at level 61, c at next level, right associativity) : loader_scope.
Notation "c ;; k" := (bind c (fun _ => k))
  (at level 61, right associativity) : loader_scope.

Local Open Scope loader_scope.

(** What a source is once a deferred one has settled. *)
Definition settled (s : ModuleSource) : option PlainSource :=
  match s with
  | Immediate p => Some p
  | Deferred o => o
  end.

(** The network reference a source is, if it is one. *)
Definition network_reference (s : ModuleSource) : option NetRef :=
  match s with
  | Immediate (NetworkRef r) | Deferred (Some (NetworkRef r)) => Some r
  | _ => None
  end.

Definition is_network_reference (s : ModuleSource) : bool :=
  match network_reference s with
  | Some _ => true
  | None => false
  end.

Definition success (code : nat) : bool := ((200 <=? code) && (code <=? 299))%nat.

Definition fetch_failed (o : FetchOutcome) : bool :=
  match o with
  | Unreachable => true
  | Responded resp => negb (success (status resp))
  end.

Section Load.

(** The host's collaborators: how a network reference is fetched and
    which byte sequences are structurally valid modules. *)
Variable fetch : NetRef -> FetchOutcome.
Variable decode : list Byte.byte -> option Module.

(** Modelled from the spec: the validity check of section 4.1 (the body
    of [init] is not in the declaration file).  Bytes that are not a
    structurally valid module fail with [MalformedModule]. *)
Definition validate (bytes : list Byte.byte) : M Module :=
  match decode bytes with
  | Some m => ret m
  | None => fail MalformedModule
  end.

(** Modelled from the spec: awaiting a deferred source (section 4.1,
    the body of [init] is not in the declaration file).  A rejected
    deferred value fails the load with [SourceUnavailable]. *)
Definition settle (s : ModuleSource) : M PlainSource :=
  match s with
  | Immediate p => ret p
  | Deferred (Some p) => emit EAwait ;; ret p
  | Deferred None => emit EAwait ;; fail SourceUnavailable
  end.

(** Modelled from the spec: resolving a source to a module (section
    4.1, the body of [init] is not in the declaration file).  Only a
    network reference is fetched; an unreachable source or a
    non-success status fails with [SourceUnavailable]; bytes that are
    not a valid module fail with [MalformedModule]. *)
Definition obtain (p : PlainSource) : M Module :=
  match p with
  | NetworkRef r =>
      emit (EFetch r) ;;
      match fetch r with
      | Unreachable => fail SourceUnavailable
      | Responded resp =>
          if success (status resp) then validate (body resp)
          else fail SourceUnavailable
      end
  | FetchedResponse resp => validate (body resp)
  | RawBytes bytes => validate bytes
  | Precompiled m => ret m
  end.

(** Modelled from the spec: the memory of the instance (section 4.1,
    the body of [init] is not in the declaration file).  With no
    memory given a fresh one of the module's minimum size is
    allocated; a given one must be at least that large. *)
Definition choose_memory (m : Module) (mem : option LinearMemory)
  : M LinearMemory :=
  match mem with
  | None => emit (EAllocate (min_pages m)) ;; ret {| pages := min_pages m |}
  | Some given =>
      if (min_pages m <=? pages given)%N then ret given
      else fail IncompatibleMemory
  end.

(** Modelled from the spec: instantiation (section 4.1, the body of
    [init] is not in the declaration file).  The start-up routine runs
    once within the instantiate step; its failure is
    [InstantiationFailed]. *)
Definition instantiate (m : Module) (mem : LinearMemory) : M Handle :=
  emit (EInstantiate m) ;;
  emit (EStart m) ;;
  if start_succeeds m then ret {| hmodule := m; memory := mem |}
  else fail InstantiationFailed.

(** Modelled from the spec: [load(source, memory?)] of section 4.1
    (the body of [init] is not in the declaration file). *)
Definition load (source : ModuleSource) (mem : option LinearMemory)
  : M Handle :=
  p <- settle source ;;
  m <- obtain p ;;
  mm <- choose_memory m mem ;;
  instantiate m mm.

End Load.

(** *** Reading a trace *)

Definition is_fetch (e : Event) : bool :=
  match e with
  | EFetch _ => true
  | _ => false
  end.

Definition is_instantiate (e : Event) : bool :=
  match e with
  | EInstantiate _ => true
  | _ => false
  end.

Definition performs_fetch (t : list Event) : bool := existsb is_fetch t.

(** Every instantiation of the trace comes after a fetch, and no fetch
    comes after an instantiation ([fetched] says whether a fetch has been
    seen so far). *)
Fixpoint fetch_then_instantiate (fetched : bool) (t : list Event) : bool :=
  match t with
  | [] => true
  | EFetch _ :: rest => fetch_then_instantiate true rest
  | EInstantiate _ :: rest => fetched && negb (performs_fetch rest)
  | _ :: rest => fetch_then_instantiate fetched rest
  end.

(** What a trace fetched, instantiated and started, in order. *)
Definition fetches (t : list Event) : list NetRef :=
  flat_map (fun e => match e with EFetch r => [r] | _ => [] end) t.

Definition instantiations (t : list Event) : list Module :=
  flat_map (fun e => match e with EInstantiate m => [m] | _ => [] end) t.

(** The module a source that needs no fetch carries: what its bytes
    decode to, or the compiled module itself. *)
Definition module_at_hand (decode : list Byte.byte -> option Module)
           (p : PlainSource) : option Module :=
  match p with
  | NetworkRef _ => None
  | FetchedResponse resp => decode (body resp)
  | RawBytes bytes => decode bytes
  | Precompiled m => Some m
  end.

(** A memory the host gives is large enough for a module; none given
    always is. *)
Definition compatible (m : Module) (mem : option LinearMemory) : bool :=
  match mem with
  | None => true
  | Some given => (min_pages m <=? pages given)%N
  end.

(** The handle a load of [m] ends in: the memory given, or a fresh one of
    the module's minimum. *)
Definition handle_of (m : Module) (mem : option LinearMemory) : Handle :=
  {| hmodule := m;
     memory := match mem with
               | Some given => given
               | None => {| pages := min_pages m |}
               end |}.

Definition produces_handle {A} (c : M A) : bool :=
  match outcome c with
  | inr _ => true
  | inl _ => false
  end.

(** *** Example hosts *)

(** A host whose network answers every request with 404, a host that
    decodes nothing, and a module that asks for one page. *)
Definition not_found : NetRef -> FetchOutcome :=
  fun _ => Responded {| status := 404; body := [] |}.

Definition no_module : list Byte.byte -> option Module := fun _ => None.

Definition one_page : Module := {| min_pages := 1; start_succeeds := true |}.

(** A host whose network answers every request with 200, and a host to
    which every byte sequence is the one-page module. *)
Definition served : NetRef -> FetchOutcome :=
  fun _ => Responded {| status := 200; body := [] |}.

Definition any_module : list Byte.byte -> option Module :=
  fun _ => Some one_page.

End Loader.

(* ===================================================================== *)
(** ** The exception slot *)
(* ===================================================================== *)

Module ExceptionStore.

Section Slot.

(** The payload is opaque: [__wbindgen_exn_store] takes it as one
    [number] and the declaration says no more about it. *)
Variable payload : Type.

(** Modelled from the spec: the Exception Store of section 3 (its state
    lives in the compiled module, not in the declaration file).  At most
    one exception is pending. *)
Record Store : Type := { slot : option payload }.

Definition empty : Store := {| slot := None |}.

(** Modelled from the spec: [store_exception(value)] of section 4.4
    (the body of [__wbindgen_exn_store] is in the compiled module, not
    in the declaration file): it records [value] into the single
    slot. *)
Definition store_exception (v : payload) (s : Store) : Store :=
  {| slot := Some v |}.

(** Modelled from the spec: the host's read-and-clear of section 4.4
    (no export of the declaration file does it). *)
Definition take_exception (s : Store) : option payload * Store :=
  (slot s, empty).

End Slot.

Arguments slot {payload} _.
Arguments empty {payload}.
Arguments store_exception {payload} _ _.
Arguments take_exception {payload} _.

End ExceptionStore.

(* ===================================================================== *)
(** ** Calls against a signature *)
(* ===================================================================== *)

Section Calls.
Import TS.

Variable assignable : ty -> value -> bool.
Variable f : file.

(** A call never passes more arguments than there are parameters. *)
Lemma accepts_call_length (ps : list param) :
  forall args,
    accepts_call assignable f ps args = true -> length args <= length ps.
Proof.
  induction ps as [|p ps IH]; intros [|a args] H; simpl in *;
    try discriminate; try lia.
  apply andb_true_iff in H as [_ H]. apply IH in H. lia.
Qed.

(** The empty call is accepted exactly when every parameter is
    optional. *)
Lemma accepts_call_nil (ps : list param) :
  accepts_call assignable f ps [] = forallb (fun p => poptional p) ps.
Proof.
  induction ps as [|p ps IH]; simpl; [reflexivity|].
  now rewrite IH.
Qed.

(** A call with one more argument than parameters is rejected whatever
    is passed. *)
Lemma accepts_call_surplus (ps : list param) :
  forall args,
    length ps < length args -> accepts_call assignable f ps args = false.
Proof.
  intros args Hlen.
  destruct (accepts_call assignable f ps args) eqn:E; [|reflexivity].
  apply accepts_call_length in E. lia.
Qed.

End Calls.

Section Sources.
Import TS Wasm Bridge.

(** The type of the parameter of [init] is closed by one pass of alias
    expansion. *)
Lemma init_parameter_closed :
  forallb (fun p => alias_free wasm_d_ts (expand wasm_d_ts (ptype p)))
          (fparams init) = true.
Proof. reflexivity. Qed.

(** The forms of a source are the alternatives of [InitInput], each one
    plain and each one behind a promise. *)
Lemma source_forms_InitInput :
  source_forms
  = map (fun t => (false, t)) (alternatives InitInput)
    ++ map (fun t => (true, t)) (alternatives InitInput).
Proof. reflexivity. Qed.

(** Every alternative of [InitInput] names a host type of one of the
    four kinds. *)
Lemma InitInput_kinds (t : ty) :
  In t (alternatives InitInput) -> exists k, kind_of_type t = Some k.
Proof.
  unfold InitInput. simpl. intros H.
  repeat (destruct H as [<-|H]; [eexists; reflexivity|]). destruct H.
Qed.

(** Every kind has an alternative in [InitInput]. *)
Lemma kinds_InitInput (k : SourceKind) :
  exists c, In (TRef c) (alternatives InitInput) /\ source_kind_of c = Some k.
Proof.
  destruct k;
    [exists "URL" | exists "Response" | exists "BufferSource"
     | exists "WebAssembly.Module"];
    (split; [simpl; tauto | reflexivity]).
Qed.

End Sources.

(* ===================================================================== *)
(** ** The loader's signature *)
(* ===================================================================== *)

Section LoaderSignature.
Import TS Wasm Bridge.

Variable assignable : ty -> value -> bool.

(** C4: the loader may be called with no source argument at all: its
    single parameter, [module_or_path], is declared optional, so the
    call with no argument is accepted by the declared signature. *)
Theorem init_source_optional :
  map (fun p => (pname p, poptional p)) (fparams init)
    = [("module_or_path", true)]
  /\ call_ok assignable init [] = true
  /\ In init (functions wasm_d_ts)
  /\ fdefault init = true.
Proof.
  repeat split; try reflexivity.
  simpl. right; now left.
Qed.

(** C5 as the specification states it fails: the call without a source
    is a load attempt whose source is none of the four kinds, whatever
    the compiler takes as assignable. *)
Lemma load_attempt_without_source :
  ~ (exists asg : ty -> value -> bool,
       forall args, call_ok asg init args = true ->
         exists v k, args = [v] /\ classify_source v = Some k).
Proof.
  intros [asg H].
  destruct (H [] eq_refl) as (v & k & E & _).
  discriminate.
Qed.

(** C5, amended: by its declared type, the source of a load is a
    network reference ([RequestInfo] or [URL]), a response, a byte buffer
    or a compiled module, plain or behind a promise: every form of the
    source is of one of the four kinds, and every kind has a plain and a
    deferred form.  The source is an optional parameter and the only one,
    so a load attempt passes at most one source and may pass none.  The
    loader returns a promise of the handle, the interface [InitOutput]. *)
Theorem load_attempt_sources :
  (forall d t, In (d, t) source_forms -> exists k, kind_of_type t = Some k)
  /\ (forall d k, exists c,
        In (d, TRef c) source_forms /\ source_kind_of c = Some k)
  /\ map (fun p => poptional p) (fparams init) = [true]
  /\ (forall args, call_ok assignable init args = true -> length args <= 1)
  /\ call_ok assignable init [] = true
  /\ fret init = TPromise (TRef "InitOutput")
  /\ lookup_interface "InitOutput" wasm_d_ts = Some InitOutput.
Proof.
  split.
  { intros d t. rewrite source_forms_InitInput, in_app_iff, !in_map_iff.
    intros [(t' & [= _ <-] & Hin)|(t' & [= _ <-] & Hin)];
      now apply InitInput_kinds. }
  split.
  { intros d k. destruct (kinds_InitInput k) as (c & Hin & Hk).
    exists c. split; [|exact Hk].
    rewrite source_forms_InitInput, in_app_iff, !in_map_iff.
    destruct d; [right | left]; exists (TRef c); now split. }
  split; [reflexivity|].
  split; [intros args H; apply accepts_call_length in H; exact H|].
  repeat split.
Qed.

(** C1 as the specification states it fails: [init] has no second
    parameter, optional or not. *)
Lemma init_has_no_second_parameter :
  ~ (exists p, nth_error (fparams init) 1 = Some p /\ poptional p = true).
Proof.
  intros (p & H & _). discriminate.
Qed.

(** No call of [init] passes a memory: a second argument is rejected
    whatever it is. *)
Lemma init_rejects_second_argument (src mem : value) :
  call_ok assignable init [src; mem] = false.
Proof.
  apply accepts_call_surplus. simpl. lia.
Qed.

End LoaderSignature.

Section LoaderSignatureExamples.
Import TS Wasm Bridge.

Lemma load_attempt_sources_witness :
  (exists k, kind_of_type (TRef "BufferSource") = Some k)
  /\ length [VPromise (VHost "BufferSource")] <= 1.
Proof.
  pose proof (load_attempt_sources (fun _ _ => true))
    as (Hkind & _ & _ & Hlen & _).
  split.
  - apply (Hkind true). unfold source_forms. simpl. tauto.
  - apply Hlen. reflexivity.
Defined.

End LoaderSignatureExamples.

(* ===================================================================== *)
(** ** The exports of the handle *)
(* ===================================================================== *)

Section HandleExports.
Import TS Wasm Bridge.

(** Looking a member up by name finds a member of the interface. *)
Lemma lookup_member_In (name : string) (ms : list member) (m : member) :
  lookup_member name ms = Some m -> In m ms /\ mname m = name.
Proof.
  induction ms as [|m0 ms IH]; simpl; [discriminate|].
  destruct (String.eqb_spec (mname m0) name) as [E|_].
  - intros [= ->]. split; [now left | assumption].
  - intros H. destruct (IH H). split; [now right | assumption].
Qed.

(** The names of the interface are pairwise distinct, so a name
    determines its member. *)
Lemma InitOutput_names_distinct : NoDup (map mname InitOutput).
Proof.
  repeat constructor; simpl;
    intros H; repeat (destruct H as [H|H]; [discriminate|]); exact H.
Qed.

(** C2 as the specification states it fails: the two-argument shim does
    not take five arguments and the context-only shim does not take
    two. *)
Lemma invoke_arities_differ :
  export_arity invoke_binary <> Some 5
  /\ export_arity invoke_nullary <> Some 2.
Proof.
  split; discriminate.
Qed.

(** C2, amended: the handle has exactly two closure shims.
    [invoke_binary] takes six numbers and returns a number;
    [invoke_nullary] takes three numbers and returns nothing. *)
Theorem invoke_shapes :
  map mname (filter is_invoke InitOutput) = [invoke_binary; invoke_nullary]
  /\ export_type invoke_binary
     = Some (TFun [num "a"; num "b"; num "c"; num "d"; num "e"; num "f"]
                  TNumber)
  /\ export_arity invoke_binary = Some 6
  /\ export_result invoke_binary = Some TNumber
  /\ export_type invoke_nullary
     = Some (TFun [num "a"; num "b"; num "c"] TVoid)
  /\ export_arity invoke_nullary = Some 3
  /\ export_result invoke_nullary = Some TVoid.
Proof.
  repeat split; reflexivity.
Qed.

(** C3 as the specification states it fails: the handle has no export
    that reads the exception slot back. *)
Lemma handle_lacks_exception_getter :
  ~ (forall r, In r listed_roles -> exposes InitOutput r = true).
Proof.
  intros H. specialize (H ExceptionGetter).
  assert (Hin : In ExceptionGetter listed_roles) by (simpl; tauto).
  apply H in Hin. discriminate.
Qed.

(** C3, amended: [init] resolves to the interface [InitOutput], which
    exposes the memory, allocate, reallocate, free, the two invokes, the
    exception-store setter, the start-up hook, the entry point and the
    dispatch table, and nothing that reads the exception slot: its only
    export about exceptions is the setter, which returns nothing, and
    the only exports that return a value are allocate, reallocate and
    [invoke_binary]. *)
Theorem handle_exports (r : Role) :
  fret init = TPromise (TRef "InitOutput")
  /\ lookup_interface "InitOutput" wasm_d_ts = Some InitOutput
  /\ exposes InitOutput r = negb (Role_eqb r ExceptionGetter)
  /\ map role_of_export (map mname InitOutput)
     = map Some [LinearMemoryView; EntryPoint; Allocate; Reallocate;
                 DispatchTable; InvokeBinary; InvokeNullary; Free;
                 ExceptionSetter; StartupHook]
  /\ filter about_exceptions InitOutput
     = [Member true "__wbindgen_exn_store" (TFun [num "a"] TVoid)]
  /\ map mname (filter yields_value InitOutput)
     = ["__wbindgen_malloc"; "__wbindgen_realloc"; invoke_binary].
Proof.
  repeat split; try reflexivity.
  destruct r; reflexivity.
Qed.

(** C7: allocate takes one number (the size) and returns a number (the
    offset); reallocate takes three numbers (offset, old size, new size)
    and returns a number; free takes two numbers (offset, size) and
    returns nothing. *)
Theorem memory_management_shapes :
  export_type "__wbindgen_malloc" = Some (TFun [num "a"] TNumber)
  /\ export_type "__wbindgen_realloc"
     = Some (TFun [num "a"; num "b"; num "c"] TNumber)
  /\ export_type "__wbindgen_free" = Some (TFun [num "a"; num "b"] TVoid)
  /\ (export_arity "__wbindgen_malloc", export_result "__wbindgen_malloc")
     = (Some 1, Some TNumber)
  /\ (export_arity "__wbindgen_realloc", export_result "__wbindgen_realloc")
     = (Some 3, Some TNumber)
  /\ (export_arity "__wbindgen_free", export_result "__wbindgen_free")
     = (Some 2, Some TVoid).
Proof.
  repeat split; reflexivity.
Qed.

(** C10: the handle exposes the dispatch table itself, the export
    [__wbindgen_export_2], as a [WebAssembly.Table] object and not as a
    function. *)
Theorem dispatch_table_exposed :
  export "__wbindgen_export_2"
    = Some (Member true "__wbindgen_export_2" (TRef "WebAssembly.Table"))
  /\ In (Member true "__wbindgen_export_2" (TRef "WebAssembly.Table"))
        InitOutput
  /\ export_arity "__wbindgen_export_2" = None
  /\ exposes InitOutput DispatchTable = true
  /\ lookup_alias "WebAssembly.Table" wasm_d_ts = None.
Proof.
  repeat split; try reflexivity.
  simpl. tauto.
Qed.

(** No member of the handle returns a promise. *)
Lemma InitOutput_synchronous :
  forallb (fun m => negb (is_promise (mtype m) || returns_promise (mtype m)))
          InitOutput = true.
Proof. reflexivity. Qed.

(** C8: of the declared functions only [init] returns a promise; no
    export of the handle (allocate, reallocate, free, the invokes, the
    exception-store setter, the start-up hook, the entry point) is or
    returns one. *)
Theorem only_load_is_deferred :
  (forall fd, In fd (functions wasm_d_ts) ->
     (returns_promise (type_of fd) = true <-> fd = init))
  /\ (forall m, In m InitOutput ->
        is_promise (mtype m) = false /\ returns_promise (mtype m) = false).
Proof.
  split.
  - intros fd [<-|[<-|[]]]; simpl; split; try discriminate; reflexivity.
  - intros m Hin.
    pose proof (proj1 (forallb_forall _ _) InitOutput_synchronous m Hin) as H.
    apply negb_true_iff, orb_false_iff in H. exact H.
Qed.

Lemma only_load_is_deferred_witness :
  returns_promise (type_of init) = true
  /\ returns_promise (TFun [num "a"] TNumber) = false.
Proof.
  split.
  - apply (proj1 only_load_is_deferred init); [simpl; tauto | reflexivity].
  - apply (proj2 only_load_is_deferred
             (Member true "__wbindgen_malloc" (TFun [num "a"] TNumber))).
    simpl. tauto.
Defined.

End HandleExports.

(* ===================================================================== *)
(** ** What a load does *)
(* ===================================================================== *)

Section LoadBehaviour.
Import Loader.

Variable assignable : TS.ty -> TS.value -> bool.
Variable fetch : NetRef -> FetchOutcome.
Variable decode : list Byte.byte -> option Module.

(** Run a load through every branch it can take. *)
Ltac load_step :=
  match goal with
  | |- context [fetch ?r] => destruct (fetch r) as [|?resp]
  | |- context [success ?c] => destruct (success c) eqn:?
  | |- context [decode ?b] => destruct (decode b) as [?m|]
  | |- context [start_succeeds ?m] => destruct (start_succeeds m) eqn:?
  | |- context [(?a <=? ?b)%N] => destruct (N.leb_spec a b)
  end.

Ltac load_cases :=
  unfold load, settle, obtain, validate, choose_memory,
    instantiate;
  simpl; repeat (load_step; simpl).

(** A fetch is made exactly for a network reference. *)
Lemma load_fetches (s : ModuleSource) (mem : option LinearMemory) :
  performs_fetch (trace (load fetch decode s mem)) = is_network_reference s.
Proof.
  destruct s as [[r|resp|b|m]|[[r|resp|b|m]|]]; destruct mem as [given|];
    load_cases; reflexivity.
Qed.

(** Nothing is instantiated before the fetch of a network reference,
    and nothing is fetched afterwards. *)
Lemma load_fetch_first (s : ModuleSource) (mem : option LinearMemory) :
  is_network_reference s = true ->
  fetch_then_instantiate false (trace (load fetch decode s mem)) = true.
Proof.
  destruct s as [[r|resp|b|m]|[[r|resp|b|m]|]]; try discriminate; intros _;
    destruct mem as [given|]; load_cases; reflexivity.
Qed.

(** A failed fetch fails the load. *)
Lemma load_fetch_failure (s : ModuleSource) (mem : option LinearMemory)
      (r : NetRef) :
  network_reference s = Some r ->
  fetch_failed (fetch r) = true ->
  outcome (load fetch decode s mem) = inl SourceUnavailable.
Proof.
  destruct s as [[r0|resp|b|m]|[[r0|resp|b|m]|]]; try discriminate;
    intros [= ->]; unfold fetch_failed;
    destruct mem as [given|]; load_cases;
    try reflexivity; try discriminate;
    intros H; apply negb_true_iff in H; congruence.
Qed.

(** With no memory given, the instance gets a fresh memory of exactly
    the minimum the module declares. *)
Lemma load_fresh_memory (s : ModuleSource) (h : Handle) :
  outcome (load fetch decode s None) = inr h ->
  pages (memory h) = min_pages (hmodule h)
  /\ In (EAllocate (min_pages (hmodule h))) (trace (load fetch decode s None)).
Proof.
  destruct s as [[r|resp|b|m]|[[r|resp|b|m]|]]; load_cases;
    try discriminate; intros [= <-]; simpl; tauto.
Qed.

Lemma load_memory_compatible (s : ModuleSource) :
  outcome (load fetch decode s None) <> inl IncompatibleMemory.
Proof.
  destruct s as [[r|resp|b|m]|[[r|resp|b|m]|]]; load_cases; discriminate.
Qed.

(** A given memory smaller than the module's minimum is refused once
    the module is at hand. *)
Lemma load_small_memory (m : Module) (given : LinearMemory) :
  (pages given < min_pages m)%N ->
  outcome (load fetch decode (Immediate (Precompiled m)) (Some given))
    = inl IncompatibleMemory.
Proof.
  intros H. load_cases; solve [lia | reflexivity].
Qed.

(** A handle comes out of a load only after the start-up routine ran,
    once. *)
Lemma load_starts_once (s : ModuleSource) (mem : option LinearMemory)
      (h : Handle) :
  outcome (load fetch decode s mem) = inr h ->
  count_occ
    (fun a b : bool => Bool.bool_dec a b)
    (map (fun e => match e with EStart _ => true | _ => false end)
         (trace (load fetch decode s mem))) true = 1.
Proof.
  destruct s as [[r|resp|b|m]|[[r|resp|b|m]|]]; destruct mem as [given|];
    load_cases; try discriminate; reflexivity.
Qed.

(** After a failed fetch nothing is instantiated. *)
Lemma load_fetch_failure_stops (s : ModuleSource) (mem : option LinearMemory)
      (r : NetRef) :
  network_reference s = Some r ->
  fetch_failed (fetch r) = true ->
  instantiations (trace (load fetch decode s mem)) = [].
Proof.
  destruct s as [[r0|resp|b|m]|[[r0|resp|b|m]|]]; try discriminate;
    intros [= ->]; unfold fetch_failed;
    destruct mem as [given|]; load_cases;
    try reflexivity; try discriminate;
    intros H; apply negb_true_iff in H; congruence.
Qed.

(** Run the last steps of a load, the memory being compatible. *)
Ltac load_finish m mem Hc :=
  unfold choose_memory, instantiate, handle_of;
  destruct mem as [?given|]; simpl in Hc |- *;
  [rewrite Hc; simpl|];
  destruct (start_succeeds m); simpl; auto.

(** A network reference that is fetched with success and whose body is a
    valid module: one fetch, then one instantiation of that module. *)
Lemma load_fetched (s : ModuleSource) (mem : option LinearMemory)
      (r : NetRef) (resp : Response) (m : Module) :
  network_reference s = Some r ->
  fetch r = Responded resp ->
  success (status resp) = true ->
  decode (body resp) = Some m ->
  compatible m mem = true ->
  fetches (trace (load fetch decode s mem)) = [r]
  /\ instantiations (trace (load fetch decode s mem)) = [m]
  /\ outcome (load fetch decode s mem)
     = if start_succeeds m then inr (handle_of m mem)
       else inl InstantiationFailed.
Proof.
  intros Hr Hf Hs Hd Hc.
  destruct s as [[r0|resp0|b|m0]|[[r0|resp0|b|m0]|]]; try discriminate;
    injection Hr as ->;
    unfold load, settle, obtain, validate; simpl;
    rewrite Hf; simpl; rewrite Hs, Hd; simpl;
    load_finish m mem Hc.
Qed.

(** A source that carries its module: no fetch, one instantiation of
    that module. *)
Lemma load_direct (s : ModuleSource) (mem : option LinearMemory)
      (p : PlainSource) (m : Module) :
  settled s = Some p ->
  module_at_hand decode p = Some m ->
  compatible m mem = true ->
  fetches (trace (load fetch decode s mem)) = []
  /\ instantiations (trace (load fetch decode s mem)) = [m]
  /\ outcome (load fetch decode s mem)
     = if start_succeeds m then inr (handle_of m mem)
       else inl InstantiationFailed.
Proof.
  intros Hp Hm Hc.
  destruct s as [p0|[p0|]]; try discriminate; injection Hp as ->;
    destruct p as [r|resp|b|m0]; simpl in Hm; try discriminate;
    unfold load, settle, obtain, validate; simpl;
    try rewrite Hm; try (injection Hm as ->); simpl;
    load_finish m mem Hc.
Qed.

(** C6: a fetch is made if and only if the source is a network reference
    (a request descriptor or a URL), and then before anything is
    instantiated: when the fetch succeeds and brings a valid module, the
    trace has that one fetch and then one instantiation of the module.
    Every other source is instantiated directly: when it carries a valid
    module, the trace has no fetch and one instantiation of the module.
    A fetch that fails (unreachable, or a non-success status) fails the
    load with [SourceUnavailable], nothing is instantiated and there is no
    handle. *)
Theorem fetch_iff_network_reference
        (s : ModuleSource) (mem : option LinearMemory) :
  performs_fetch (trace (load fetch decode s mem)) = is_network_reference s
  /\ (is_network_reference s = true ->
      fetch_then_instantiate false (trace (load fetch decode s mem)) = true)
  /\ (forall r, network_reference s = Some r ->
        fetch_failed (fetch r) = true ->
        outcome (load fetch decode s mem) = inl SourceUnavailable
        /\ produces_handle (load fetch decode s mem) = false
        /\ instantiations (trace (load fetch decode s mem)) = [])
  /\ (forall r resp m, network_reference s = Some r ->
        fetch r = Responded resp ->
        success (status resp) = true ->
        decode (body resp) = Some m ->
        compatible m mem = true ->
        fetches (trace (load fetch decode s mem)) = [r]
        /\ instantiations (trace (load fetch decode s mem)) = [m]
        /\ outcome (load fetch decode s mem)
           = if start_succeeds m then inr (handle_of m mem)
             else inl InstantiationFailed)
  /\ (forall p m, settled s = Some p ->
        module_at_hand decode p = Some m ->
        compatible m mem = true ->
        is_network_reference s = false
        /\ fetches (trace (load fetch decode s mem)) = []
        /\ instantiations (trace (load fetch decode s mem)) = [m]
        /\ outcome (load fetch decode s mem)
           = if start_succeeds m then inr (handle_of m mem)
             else inl InstantiationFailed).
Proof.
  split; [apply load_fetches|].
  split; [apply load_fetch_first|].
  split.
  { intros r Hr Hfail.
    pose proof (load_fetch_failure s mem r Hr Hfail) as E.
    split; [exact E|]. split.
    - unfold produces_handle. now rewrite E.
    - now apply load_fetch_failure_stops with (r := r). }
  split; [intros r resp m; apply load_fetched|].
  intros p m Hp Hm Hc. split; [|now apply load_direct with (p := p)].
  destruct s as [p0|[p0|]]; try discriminate; injection Hp as ->;
    destruct p as [r|resp|b|m0]; simpl in Hm; try discriminate; reflexivity.
Qed.

(** C1, amended: [init] declares the optional source as its only
    parameter and no Linear Memory parameter, so no call passes a memory;
    the load then allocates a fresh Linear Memory of the module's declared
    minimum and never fails with [IncompatibleMemory]. *)
Theorem init_takes_no_memory :
  map TS.pname (TS.fparams Wasm.init) = ["module_or_path"]
  /\ (forall args,
        Wasm.call_ok assignable Wasm.init args = true -> length args <= 1)
  /\ (forall src mem, Wasm.call_ok assignable Wasm.init [src; mem] = false)
  /\ (forall s h, outcome (load fetch decode s None) = inr h ->
        (min_pages (hmodule h) <= pages (memory h))%N
        /\ In (EAllocate (min_pages (hmodule h)))
              (trace (load fetch decode s None)))
  /\ (forall s, outcome (load fetch decode s None) <> inl IncompatibleMemory).
Proof.
  split; [reflexivity|].
  split; [intros args H; apply accepts_call_length in H; exact H|].
  split; [apply init_rejects_second_argument|].
  split; [|apply load_memory_compatible].
  intros s h H. destruct (load_fresh_memory s h H) as [E Hin].
  split; [rewrite E; apply N.le_refl | exact Hin].
Qed.

End LoadBehaviour.

Section LoadExamples.
Import Loader.

Lemma fetch_iff_network_reference_witness :
  (outcome (load not_found no_module
              (Immediate (NetworkRef (Url "pkg/wasm_bg.wasm"))) None)
     = inl SourceUnavailable
   /\ instantiations
        (trace (load not_found no_module
                  (Immediate (NetworkRef (Url "pkg/wasm_bg.wasm"))) None))
      = [])
  /\ (fetches
        (trace (load served any_module
                  (Immediate (NetworkRef (Url "pkg/wasm_bg.wasm"))) None))
      = [Url "pkg/wasm_bg.wasm"]
      /\ instantiations
           (trace (load served any_module
                     (Immediate (NetworkRef (Url "pkg/wasm_bg.wasm"))) None))
         = [one_page]
      /\ outcome (load served any_module
                    (Immediate (NetworkRef (Url "pkg/wasm_bg.wasm"))) None)
         = inr (handle_of one_page None))
  /\ (fetches
        (trace (load not_found no_module
                  (Deferred (Some (Precompiled one_page)))
                  (Some {| pages := 2 |})))
      = []
      /\ instantiations
           (trace (load not_found no_module
                     (Deferred (Some (Precompiled one_page)))
                     (Some {| pages := 2 |})))
         = [one_page]
      /\ outcome (load not_found no_module
                    (Deferred (Some (Precompiled one_page)))
                    (Some {| pages := 2 |}))
         = inr (handle_of one_page (Some {| pages := 2 |}))).
Proof.
  split; [|split].
  - destruct (fetch_iff_network_reference not_found no_module
                (Immediate (NetworkRef (Url "pkg/wasm_bg.wasm"))) None)
      as (_ & _ & Hfail & _).
    destruct (Hfail (Url "pkg/wasm_bg.wasm") eq_refl eq_refl)
      as (E & _ & I).
    split; [exact E | exact I].
  - destruct (fetch_iff_network_reference served any_module
                (Immediate (NetworkRef (Url "pkg/wasm_bg.wasm"))) None)
      as (_ & _ & _ & Hok & _).
    exact (Hok (Url "pkg/wasm_bg.wasm") {| status := 200; body := [] |}
               one_page eq_refl eq_refl eq_refl eq_refl eq_refl).
  - destruct (fetch_iff_network_reference not_found no_module
                (Deferred (Some (Precompiled one_page)))
                (Some {| pages := 2 |}))
      as (_ & _ & _ & _ & Hdirect).
    destruct (Hdirect (Precompiled one_page) one_page
                      eq_refl eq_refl eq_refl) as (_ & H).
    exact H.
Defined.

Lemma init_takes_no_memory_witness :
  length [TS.VHost "WebAssembly.Module"] <= 1
  /\ (1 <= pages (memory {| hmodule := one_page; memory := {| pages := 1 |} |}))%N.
Proof.
  pose proof (init_takes_no_memory (fun _ _ => true) not_found no_module)
    as (_ & Hargs & _ & Hmem & _).
  split.
  - apply Hargs. reflexivity.
  - exact (proj1 (Hmem (Immediate (Precompiled one_page))
                     {| hmodule := one_page; memory := {| pages := 1 |} |}
                     eq_refl)).
Defined.

End LoadExamples.

(* ===================================================================== *)
(** ** The exception slot *)
(* ===================================================================== *)

Section ExceptionRoundTrip.
Import ExceptionStore.

Variable payload : Type.

(** C9: a value stored into the exception slot by the setter is exactly
    what the next read by the host returns, when no other store comes in
    between; the read leaves the slot empty.  The setter is the export
    [__wbindgen_exn_store], one number in and nothing out. *)
Theorem exception_round_trip (v : payload) (s : Store payload) :
  fst (take_exception (store_exception v s)) = Some v
  /\ snd (take_exception (store_exception v s)) = empty
  /\ Wasm.export_type "__wbindgen_exn_store"
     = Some (TS.TFun [TS.num "a"] TS.TVoid).
Proof.
  repeat split.
Qed.

End ExceptionRoundTrip.



(* ===================================================================== *)
(** ** The raw exports as a numeric interface *)
(* ===================================================================== *)

Section NumericCalls.
Import TS.

Variable assignable : ty -> value -> bool.
Variable f : file.

(** Against parameters that are all required numbers, a call type-checks
    exactly when it passes one argument per parameter, each assignable to
    [number]. *)
Lemma accepts_call_numbers (ps : list param) :
  all_numbers ps = true ->
  forall args,
    accepts_call assignable f ps args = true
    <-> length args = length ps
        /\ forallb (assignable TNumber) args = true.
Proof.
  induction ps as [|[n o t] ps IH]; intros Hnum args.
  - destruct args; simpl; split; try tauto; try discriminate.
    intros [H _]. discriminate.
  - simpl in Hnum. apply andb_true_iff in Hnum as [Hp Hps].
    destruct t; try discriminate. apply negb_true_iff in Hp. subst o.
    destruct args as [|a args]; simpl.
    + split; [discriminate | intros [H _]; discriminate].
    + unfold fits, has_type. simpl. rewrite orb_false_r.
      rewrite !andb_true_iff, (IH Hps args). split.
      * intros (Ha & Hlen & Hall). repeat split; auto.
      * intros (Hlen & Ha & Hall). injection Hlen as Hlen. auto.
Qed.

(** Among members with pairwise distinct names, a member is what its own
    name looks up. *)
Lemma lookup_member_NoDup (ms : list member) (m : member) :
  NoDup (map mname ms) -> In m ms -> lookup_member (mname m) ms = Some m.
Proof.
  induction ms as [|m0 ms IH]; simpl; [tauto|].
  intros Hnd [->|Hin].
  - now rewrite String.eqb_refl.
  - inversion Hnd as [|x l Hnotin Hnd']; subst.
    destruct (String.eqb_spec (mname m0) (mname m)) as [E|_].
    + exfalso. apply Hnotin. rewrite E. now apply in_map.
    + now apply IH.
Qed.

End NumericCalls.

Section RawExports.
Import TS Wasm Bridge.

(** The function members of the handle, checked one by one. *)
Lemma InitOutput_numeric :
  forallb (fun m => match mtype m with
                    | TFun ps TNumber | TFun ps TVoid => all_numbers ps
                    | TFun _ _ => false
                    | _ => true
                    end) InitOutput = true.
Proof. reflexivity. Qed.

Lemma InitOutput_function (m : member) (ps : list param) (r : ty) :
  In m InitOutput -> mtype m = TFun ps r ->
  all_numbers ps = true /\ (r = TNumber \/ r = TVoid).
Proof.
  intros Hin E.
  pose proof (proj1 (forallb_forall _ _) InitOutput_numeric m Hin) as H.
  cbv beta in H. rewrite E in H. destruct r; try discriminate; tauto.
Qed.

(** X1: only numbers cross the boundary of the raw exports: every function
    member of [InitOutput] takes required parameters of type [number]
    only, and returns a [number] or nothing. *)
Theorem exports_are_numeric (m : member) (ps : list param) (r : ty) :
  In m InitOutput -> mtype m = TFun ps r ->
  (forall p, In p ps -> ptype p = TNumber /\ poptional p = false)
  /\ (r = TNumber \/ r = TVoid).
Proof.
  intros Hin E. destruct (InitOutput_function m ps r Hin E) as [Hnum Hr].
  split; [|exact Hr]. intros p Hp.
  pose proof (proj1 (forallb_forall _ _) Hnum p Hp) as H.
  cbv beta in H. destruct (ptype p); try discriminate.
  apply negb_true_iff in H. now split.
Qed.

Lemma exports_are_numeric_witness :
  (forall p, In p [num "a"; num "b"] ->
     ptype p = TNumber /\ poptional p = false)
  /\ (TVoid = TNumber \/ TVoid = TVoid).
Proof.
  apply (exports_are_numeric
           (Member true "__wbindgen_free" (TFun [num "a"; num "b"] TVoid))).
  - simpl. tauto.
  - reflexivity.
Defined.

(** X2: a call of a function member of the handle type-checks exactly
    when it passes one argument for each declared parameter, each
    assignable to [number]: no argument may be left out or added. *)
Theorem export_call_exact
        (assignable : ty -> value -> bool)
        (m : member) (ps : list param) (r : ty) (args : list value) :
  In m InitOutput -> mtype m = TFun ps r ->
  (accepts_call assignable wasm_d_ts ps args = true
   <-> length args = length ps
       /\ forallb (assignable TNumber) args = true).
Proof.
  intros Hin E. apply accepts_call_numbers.
  exact (proj1 (InitOutput_function m ps r Hin E)).
Qed.

Lemma export_call_exact_witness :
  accepts_call (fun t _ => match t with TNumber => true | _ => false end)
               wasm_d_ts [num "a"; num "b"; num "c"]
               [VNumber; VNumber; VNumber] = true
  /\ (accepts_call (fun t _ => match t with TNumber => true | _ => false end)
                   wasm_d_ts [num "a"; num "b"; num "c"]
                   [VNumber; VNumber] = true -> 2 = 3).
Proof.
  pose proof (export_call_exact
                (fun t _ => match t with TNumber => true | _ => false end)
                (Member true "__wbindgen_realloc"
                        (TFun [num "a"; num "b"; num "c"] TNumber))
                [num "a"; num "b"; num "c"] TNumber) as H.
  split.
  - apply (proj2 (H [VNumber; VNumber; VNumber]
                    ltac:(simpl; tauto) eq_refl)).
    split; reflexivity.
  - intros E.
    exact (proj1 (proj1 (H [VNumber; VNumber] ltac:(simpl; tauto) eq_refl)
                        E)).
Defined.

(** X3: the exported function [start_app] has the type of the handle's
    [start_app] member, no parameter and no result, and the only call of
    it that type-checks passes no argument. *)
Theorem start_app_nullary
        (assignable : ty -> value -> bool) (args : list value) :
  export_type "start_app" = Some (type_of start_app)
  /\ fret start_app = TVoid
  /\ (call_ok assignable start_app args = true <-> args = []).
Proof.
  repeat split; try reflexivity.
  - intros H. apply accepts_call_length in H. simpl in H.
    destruct args; [reflexivity | simpl in H; lia].
  - intros ->. reflexivity.
Qed.

Lemma start_app_nullary_witness :
  call_ok (fun _ _ => true) start_app [] = true.
Proof.
  apply (proj2 (proj2 (proj2 (start_app_nullary (fun _ _ => true) [])))).
  reflexivity.
Defined.

(** X4: every member of [InitOutput] is declared [readonly] and under a
    name of its own, so looking a member's name up on the handle returns
    that member. *)
Theorem export_lookup (m : member) :
  In m InitOutput -> export (mname m) = Some m /\ mreadonly m = true.
Proof.
  intros Hin. split.
  - apply lookup_member_NoDup; [apply InitOutput_names_distinct | exact Hin].
  - simpl in Hin.
    repeat (destruct Hin as [<-|Hin]; [reflexivity|]). destruct Hin.
Qed.

Lemma export_lookup_witness :
  export "memory" = Some (Member true "memory" (TRef "WebAssembly.Memory")).
Proof.
  apply (proj1 (export_lookup
                  (Member true "memory" (TRef "WebAssembly.Memory"))
                  ltac:(simpl; tauto))).
Defined.

(** X6: the memory and the dispatch table are the only members of the
    handle that are objects; every other member is a function. *)
Theorem export_objects (m : member) :
  In m InitOutput ->
  (arity (mtype m) = None
   <-> mname m = "memory" \/ mname m = "__wbindgen_export_2")
  /\ (mname m = "memory" -> mtype m = TRef "WebAssembly.Memory").
Proof.
  intros Hin. simpl in Hin.
  repeat (destruct Hin as [<-|Hin];
          [simpl; split;
           [split; [first [tauto | discriminate]
                   | intros [H|H]; first [reflexivity | discriminate]]
           | first [reflexivity | discriminate]]|]).
  destruct Hin.
Qed.

Lemma export_objects_witness :
  arity (TRef "WebAssembly.Memory") = None.
Proof.
  apply (proj1 (export_objects
                  (Member true "memory" (TRef "WebAssembly.Memory"))
                  ltac:(simpl; tauto))).
  now left.
Defined.

End RawExports.
